(** * CEBRA: dataset indexing, loader protocol and noise registry

    A shallow embedding of [cebra/data/base.py] (the abstract [Dataset] and
    [Loader] classes) and of the noise registry of
    [cebra/datasets/generate_synthetic_data.py], with the properties the
    specification states about them.

    Conventions of the embedding:
    - a Python [int] is a [Z]; [None]-able values are [option]s;
    - a one-dimensional [torch.long] tensor is a [list Z], a two-dimensional
      one a [list (list Z)] (row major); element arithmetic is 64-bit two's
      complement and written out with [wrap64];
    - a Python call that may raise returns a [result]; code that also draws
      random numbers or touches other state runs in the monad [M]. *)

From stdpp Require Import base numbers list list_numbers strings gmap.

Local Open Scope Z_scope.

(** ** Exceptions and results *)

(** The exception classes raised by the modelled code. *)
Inductive exn : Type :=
  | ValueError
  | TypeError
  | OverflowError
  | NotImplementedError.

Global Instance exn_eq_dec : EqDecision exn.
Proof. solve_decision. Defined.

Inductive result (A : Type) : Type :=
  | Ok (a : A)
  | Raise (e : exn).
Arguments Ok {A} a.
Arguments Raise {A} e.

Definition is_Ok {A} (r : result A) : Prop :=
  match r with Ok _ => True | Raise _ => False end.

(** A computation over a world [W] (random generators and whatever else the
    subclasses keep): it returns or raises, and leaves a new world. *)
Definition M (W A : Type) : Type := W -> result A * W.

Definition ret {W A} (a : A) : M W A := fun w => (Ok a, w).

Definition raise {W A} (e : exn) : M W A := fun w => (Raise e, w).

Definition bind {W A B} (m : M W A) (k : A -> M W B) : M W B :=
  fun w =>
    match m w with
    | (Ok a, w') => k a w'
    | (Raise e, w') => (Raise e, w')
    end.

Declare Scope py_scope.
Delimit Scope py_scope with py.
Notation "x <~ m ;; k" := (bind m (fun x => k))
  (at level 100, m at next level, right associativity) : py_scope.

(** ** 64-bit tensor elements *)

Definition int64_min : Z := - 2 ^ 63.
Definition int64_max : Z := 2 ^ 63 - 1.

(** Two's complement reduction of an integer to the [torch.long] range. *)
Definition wrap64 (z : Z) : Z := (z + 2 ^ 63) mod 2 ^ 64 - 2 ^ 63.

(** [torch.arange(start, end)]: the integers [start, start+1, ..., end-1];
    empty when [end <= start]. *)
Definition torch_arange (start end_ : Z) : list Z := seqZ start (end_ - start).

(** [torch.clamp(x, min, max)] on one element: [min(max(x, min), max)], which
    is [max] whenever [min > max]. *)
Definition clamp (x min_ max_ : Z) : Z := Z.min (Z.max x min_) max_.

Definition torch_clamp (input : list Z) (min_ max_ : Z) : list Z :=
  (fun x => clamp x min_ max_) <$> input.

(** [a[:, None] + b[None, :]]: broadcasting sum of a column and a row. *)
Definition broadcast_add (a b : list Z) : list (list Z) :=
  (fun x => (fun d => wrap64 (x + d)) <$> b) <$> a.

(** ** Offset *)

(** Modelled from the spec: [cebra.data.datatypes.Offset] is not among the
    sources. Section 3 describes it as two integers [left], [right], the
    relative window [[-left, right)], of total length [left + right]. *)
Record Offset : Type := mkOffset { left : Z; right : Z }.

(** ** Dataset *)

(** [Dataset] is abstract: a concrete subclass adds its own attributes [D]
    and supplies [__len__]. *)
Class HasLen (D : Type) : Type := __len__ : D -> Z.

Record Dataset (D : Type) : Type := mkDataset {
  offset : Offset;      (* self.offset *)
  device : string;      (* kept by cebra.io.HasDevice *)
  attrs : D             (* what the subclass stores *)
}.
Arguments mkDataset {D} _ _ _.
Arguments offset {D} _.
Arguments device {D} _.
Arguments attrs {D} _.

(** [Dataset.__init__(self, device="cpu")] on the attributes of the subclass. *)
Definition Dataset_init {D} (a : D) (device_ : string) : Dataset D :=
  mkDataset (mkOffset 0 1) device_ a.

Definition len {D} `{HasLen D} (self : Dataset D) : Z := __len__ (attrs self).

(** The optional side indices; the base class has none. A tensor here is
    its list of entries, so the empty tensor is [Some []]. *)
Definition continuous_index {D} (self : Dataset D) : option (list Z) := None.

Definition discrete_index {D} (self : Dataset D) : option (list Z) := None.

Definition expand_index {D} `{HasLen D} (self : Dataset D) (index : list Z)
  : result (list (list Z)) :=
  let offset_ := torch_arange (- left (offset self)) (right (offset self)) in
  let index := torch_clamp index (left (offset self))
                           (len self - right (offset self)) in
  Ok (broadcast_add index offset_).

(** [configure_for] reads the offset of a model; the model class is outside
    the sources and only its [get_offset] is used. *)
Class HasOffset (Model : Type) : Type := get_offset : Model -> Offset.

Definition configure_for {D Model} `{HasOffset Model}
    (self : Dataset D) (model : Model) : Dataset D :=
  mkDataset (get_offset model) (device self) (attrs self).

(** ** Loader *)

(** The built-in [len(obj)] on what [obj.__len__()] returned: it wants an
    integer, refuses a negative one, and refuses one that does not fit the
    index type of the interpreter ([sys.maxsize] is [2^63 - 1]). *)
Definition builtin_len (r : option Z) : result Z :=
  match r with
  | None => Raise TypeError
  | Some n =>
    if decide (n < 0) then Raise ValueError
    else if decide (int64_max < n) then Raise OverflowError
    else Ok n
  end.

Definition lift {W A} (r : result A) : M W A := fun w => (r, w).

(** A computation that returns, from whatever world it starts in. *)
Definition returns {W A} (m : M W A) : Prop := forall w, is_Ok (m w).1.

Section Loader.
(** [D]: attributes of the dataset subclass; [BatchIndex], [Batch]: the
    types of [cebra.data.datatypes]; [W]: the world the sampling runs in. *)
Context {D BatchIndex Batch W : Type}.

(** The dataclass fields read by the methods below. *)
Record Loader : Type := mkLoader {
  dataset : Dataset D;
  num_steps : option Z;
  batch_size : option Z
}.

(** The abstract methods, as a subclass overrides them. *)
Class DatasetMethods : Type :=
  load_batch : Dataset D -> BatchIndex -> M W Batch.

Class LoaderMethods : Type :=
  get_indices : Loader -> option Z -> M W BatchIndex.

(** Their bodies in the base classes. *)
Definition Dataset_load_batch (self : Dataset D) (index : BatchIndex)
  : M W Batch := raise NotImplementedError.

Definition Loader_get_indices (self : Loader) (num_samples : option Z)
  : M W BatchIndex := raise NotImplementedError.

Definition __post_init__ (self : Loader) : result unit :=
  match num_steps self with
  | None => Raise ValueError
  | Some n =>
    if decide (n <= 0) then Raise ValueError
    else match batch_size self with
         | Some b => if decide (b <= 0) then Raise ValueError else Ok tt
         | None => Ok tt
         end
  end.

(** The constructor the dataclass generates: store the fields, then run
    [__post_init__]; the object exists for the caller only if that returns. *)
Definition Loader_init (dataset_ : Dataset D) (num_steps_ batch_size_ : option Z)
  : result Loader :=
  let self := mkLoader dataset_ num_steps_ batch_size_ in
  match __post_init__ self with
  | Ok _ => Ok self
  | Raise e => Raise e
  end.

(** [Loader.__len__]. *)
Definition Loader_len (self : Loader) : option Z := num_steps self.

Context `{DatasetMethods} `{LoaderMethods}.

(** The generator object [__iter__] returns. Its body starts at the first
    [next]; afterwards it is suspended at the [yield] with some iterations of
    the [range] left, or it has returned. *)
Inductive generator : Type :=
  | GenCreated
  | GenSuspended (remaining : nat)
  | GenFinished.

Definition __iter__ (self : Loader) : generator := GenCreated.

(** One turn of the loop body, up to the [yield]. *)
Definition loop_turn (self : Loader) (remaining : nat)
  : M W (option Batch * generator) :=
  match remaining with
  | O => ret (None, GenFinished)
  | S k =>
    (index <~ get_indices self (batch_size self) ;;
     batch <~ load_batch (dataset self) index ;;
     ret (Some batch, GenSuspended k))%py
  end.

(** [next(gen)]: [Some batch] for a yielded batch, [None] for
    [StopIteration]. *)
Definition gen_next (self : Loader) (g : generator)
  : M W (option Batch * generator) :=
  match g with
  | GenCreated =>
    (n <~ lift (builtin_len (Loader_len self)) ;;
     loop_turn self (Z.to_nat n))%py
  | GenSuspended k => loop_turn self k
  | GenFinished => ret (None, GenFinished)
  end.

(** [list(gen)]: call [next] until the generator is exhausted. [fuel] bounds
    the number of calls. *)
Fixpoint collect (self : Loader) (fuel : nat) (g : generator)
  : M W (option (list Batch)) :=
  match fuel with
  | O => ret None
  | S fuel' =>
    (r <~ gen_next self g ;;
     match r with
     | (None, _) => ret (Some [])
     | (Some batch, g') =>
       rest <~ collect self fuel' g' ;;
       ret ((batch ::.) <$> rest)
     end)%py
  end.

(** What one iteration does to the world, as a relation: [get_indices] with
    the loader's batch size first, [load_batch] on its result second. *)
Inductive iterates (self : Loader) : W -> list Batch -> W -> Prop :=
  | iterates_nil w : iterates self w [] w
  | iterates_cons w index w1 batch w2 batches w3 :
      get_indices self (batch_size self) w = (Ok index, w1) ->
      load_batch (dataset self) index w1 = (Ok batch, w2) ->
      iterates self w2 batches w3 ->
      iterates self w (batch :: batches) w3.
End Loader.

(** ** The noise registry of [generate_synthetic_data.py] *)

Module generate_synthetic_data.
Section Noise.
(** [ndarray]: numpy arrays of rates and samples; [W]: the state of the
    global numpy generator. *)
Context {ndarray W : Type}.

(** The numpy and scipy calls the noise functions make. Scalar arguments are
    the integer literals of the source. *)
Class NumPy : Type := {
  np_random_poisson : ndarray -> M W ndarray;
  np_random_laplace : ndarray -> M W ndarray;
  np_random_uniform : Z -> Z -> list nat -> M W ndarray;
  np_clip : ndarray -> Z -> Z -> ndarray;
  np_add : ndarray -> ndarray -> ndarray;
  np_shape : ndarray -> list nat;
  truncnorm_rvs : Z -> Z -> ndarray -> M W ndarray;
  t_rvs : Z -> ndarray -> M W ndarray
}.
Context `{NumPy}.

(** A function object: the name [def] gave it and what calling it does. *)
Record function : Type := def {
  __name__ : string;
  __call__ : ndarray -> M W ndarray
}.

(** The decorator, on the module's dictionary [__noises]. *)
Definition _register_noise (func : function) (__noises : gmap string function)
  : function * gmap string function :=
  (func, <[__name__ func := func]> __noises).

Definition poisson : function :=
  def "poisson" (fun x => np_random_poisson x).

Definition gaussian : function :=
  def "gaussian" (fun x => truncnorm_rvs 0 1000 x).

Definition laplace : function :=
  def "laplace"
      (fun x => (y <~ np_random_laplace x ;; ret (np_clip y 0 1000))%py).

Definition uniform : function :=
  def "uniform"
      (fun x => (u <~ np_random_uniform 0 2 (np_shape x) ;; ret (np_add u x))%py).

Definition t : function :=
  def "t" (fun x => t_rvs 2 x).

Definition refractory_poisson : function :=
  def "refractory_poisson" (fun x => raise NotImplementedError).

(** The dictionary once the module body has run: it starts empty and each
    decorated definition, in source order, goes through [_register_noise]. *)
Definition __noises : gmap string function :=
  foldl (fun noises func => (_register_noise func noises).2) ∅
        [poisson; gaussian; laplace; uniform; t; refractory_poisson].
End Noise.
End generate_synthetic_data.

(** ** The batch adapter of the spike generator *)

(** A tensor of any rank: its shape and its entries in row-major order. *)
Record Tensor (A : Type) : Type := mkTensor {
  shape : list nat;
  data : list A
}.
Arguments mkTensor {A} _ _.
Arguments shape {A} _.
Arguments data {A} _.

Definition numel (shape_ : list nat) : nat := foldr Nat.mul 1%nat shape_.

(** The entries of a tensor fill its shape. *)
Definition Tensor_wf {A} (x : Tensor A) : Prop :=
  length (data x) = numel (shape x).

(** [flat.reshape(shape)]: refused unless the sizes agree. *)
Definition reshape {A} (flat : list A) (shape_ : list nat) : result (Tensor A) :=
  if decide (length flat = numel shape_) then Ok (mkTensor shape_ flat)
  else Raise ValueError.

(** Run [f] on each entry in turn, threading the world. *)
Fixpoint mapM {W A B} (f : A -> M W B) (l : list A) : M W (list B) :=
  match l with
  | [] => ret []
  | a :: l' => (b <~ f a ;; bs <~ mapM f l' ;; ret (b :: bs))%py
  end.

Section PoissonNeuronTransform.
(** [rate], [period], [count]: the floating-point rates, refractory periods
    and the spike counts; [W]: the random generator. *)
Context {rate period count W : Type}.

(** One draw of a refractory-corrected spike count at a rate; it always
    produces a count and advances the generator. *)
Class SpikeSampler : Type :=
  _get_counts : rate -> period -> W -> count * W.
Context `{SpikeSampler}.

Record PoissonNeuronTransform : Type := mkPoissonNeuronTransform {
  num_neurons : nat;
  refractory_period : period
}.

(** Modelled from the spec: [cebra.datasets.poisson.PoissonNeuronTransform]
    is not among the sources. Section 4.5: applied to a tensor of rates it
    returns a tensor of identical shape in which each scalar entry is replaced
    by one independent draw of a refractory-corrected spike count at that
    rate. The entries are visited as the refractory branch of
    [generate_synthetic_data.py] does: flatten, one draw per rate, reshape
    to the shape of the input. *)
Definition PoissonNeuronTransform_call
    (self : PoissonNeuronTransform) (spike_rates : Tensor rate)
  : M W (Tensor count) :=
  (x <~ mapM (fun r w => let (c, w') := _get_counts r (refractory_period self) w
                         in (Ok c, w'))
             (data spike_rates) ;;
   lift (reshape x (shape spike_rates)))%py.
End PoissonNeuronTransform.

(** ** Concrete instances used to run the definitions *)

(** A dataset subclass that stores its samples in a list. *)
Global Instance list_HasLen {A} : HasLen (list A) :=
  fun samples => Z.of_nat (length samples).

(** Seven samples, window [[-2, 3)]. *)
Definition demo_dataset : Dataset (list Z) :=
  mkDataset (mkOffset 2 3) "cpu" [10; 11; 12; 13; 14; 15; 16].


(** A loader over list datasets. Its world is a counter standing for the
    random generator: [get_indices] returns [num_samples] consecutive seeds
    from the counter (one seed for [None]) and advances it; [load_batch]
    expands the seeds into windows. *)
Global Instance demo_LoaderMethods
  : @LoaderMethods (list Z) (list Z) Z :=
  fun self num_samples w => (Ok (seqZ w (default 1 num_samples)), w + 1).

Global Instance demo_DatasetMethods
  : @DatasetMethods (list Z) (list Z) (list (list Z)) Z :=
  fun self index w => (expand_index self index, w).

Definition demo_loader : Loader :=
  mkLoader demo_dataset (Some 3) (Some 2).

(** A sampler over integer rates whose generator is a counter: the count
    is the rate thinned by the period and perturbed by the counter. *)
Global Instance demo_SpikeSampler : @SpikeSampler Z Z Z Z :=
  fun rate_ period_ w => (Z.max 0 (rate_ - period_ + w mod 3), w + 1).

Definition demo_transform : PoissonNeuronTransform :=
  mkPoissonNeuronTransform 3 2.

Definition demo_rates : Tensor Z :=
  mkTensor [2; 3]%nat [40; 40; 40; 10; 10; 10].

(** ** Consumers of the generator, and what the registry promises *)

Section Consumers.
Context {D BatchIndex Batch W : Type}.
Context `{!@DatasetMethods D BatchIndex Batch W}.
Context `{!@LoaderMethods D BatchIndex W}.


End Consumers.

Section RegistryInvariant.
Import generate_synthetic_data.
Context {ndarray W : Type} `{!@NumPy ndarray W}.

(** Every function of a registry is filed under its own name. *)
Definition keyed_by_name
    (noises : gmap string (function (ndarray := ndarray) (W := W))) : Prop :=
  forall name func, noises !! name = Some func -> __name__ func = name.

(** The call into numpy or scipy that the body of the function defined
    under [name] makes on its argument [x]; the stub makes none. *)
Definition sampler_call (name : string) (x : ndarray) : option (M W ndarray) :=
  if decide (name = "poisson") then Some (np_random_poisson x)
  else if decide (name = "gaussian") then Some (truncnorm_rvs 0 1000 x)
  else if decide (name = "laplace") then Some (np_random_laplace x)
  else if decide (name = "uniform")
       then Some (np_random_uniform 0 2 (np_shape x))
  else if decide (name = "t") then Some (t_rvs 2 x)
  else None.
End RegistryInvariant.

(** A model that is nothing but its receptive field. *)
Global Instance demo_HasOffset : HasOffset Offset := fun model => model.



(** Arrays of integers under a counter for the generator; every sampler
    shifts its argument by the counter and advances it. *)
Global Instance demo_NumPy : @generate_synthetic_data.NumPy (list Z) Z := {|
  generate_synthetic_data.np_random_poisson x w := (Ok ((fun v => v + w) <$> x), w + 1);
  generate_synthetic_data.np_random_laplace x w := (Ok ((fun v => v - w) <$> x), w + 1);
  generate_synthetic_data.np_random_uniform low high size w :=
    (Ok (replicate (numel size) (low + w mod (high - low))), w + 1);
  generate_synthetic_data.np_clip x a_min a_max :=
    (fun v => Z.min (Z.max v a_min) a_max) <$> x;
  generate_synthetic_data.np_add x y := zip_with Z.add x y;
  generate_synthetic_data.np_shape x := [length x];
  generate_synthetic_data.truncnorm_rvs a b loc w :=
    (Ok ((fun v => v + Z.min (Z.max w a) b) <$> loc), w + 1);
  generate_synthetic_data.t_rvs df loc w := (Ok ((fun v => v + df * w) <$> loc), w + 1)
|}.

(** * Properties *)

(** ** Index expansion *)

(** Seeds inside, above and below the range: the last two are clamped to
    [N - right = 4] and to [left = 2]. *)
Example expand_index_demo :
  expand_index demo_dataset [0; 3; 100; -5]
  = Ok [[0; 1; 2; 3; 4]; [1; 2; 3; 4; 5]; [2; 3; 4; 5; 6]; [0; 1; 2; 3; 4]].
Proof. reflexivity. Qed.

Lemma wrap64_id (z : Z) : int64_min <= z <= int64_max -> wrap64 z = z.
Proof.
  unfold int64_min, int64_max, wrap64. intros Hz.
  rewrite Z.mod_small; lia.
Qed.

Lemma clamp_between (x lo hi : Z) : lo <= hi -> lo <= clamp x lo hi <= hi.
Proof. unfold clamp. lia. Qed.


(** A row of the broadcast sum is a window of consecutive integers as long
    as the window stays inside the 64-bit range. *)
Lemma window_row (c l r : Z) :
  int64_min <= c - l -> c + r - 1 <= int64_max ->
  (fun d => wrap64 (c + d)) <$> torch_arange (- l) r = seqZ (c - l) (l + r).
Proof.
  intros Hlo Hhi. unfold torch_arange.
  replace (r - - l) with (l + r) by lia.
  replace (c - l) with (c + - l) by lia.
  rewrite <- fmap_add_seqZ.
  apply Forall_fmap_ext, Forall_seqZ. intros d Hd.
  apply wrap64_id. lia.
Qed.

Lemma expand_index_unfold {D} `{HasLen D} (self : Dataset D) (index : list Z) :
  expand_index self index =
  Ok ((fun x => (fun d => wrap64
                   (clamp x (left (offset self))
                            (len self - right (offset self)) + d))
                <$> torch_arange (- left (offset self)) (right (offset self)))
      <$> index).
Proof.
  unfold expand_index, broadcast_add, torch_clamp.
  by rewrite <- list_fmap_compose.
Qed.

(** With [left + right <= N] every row is the window around the clamped
    seed. *)
Lemma expand_index_windows {D} `{HasLen D} (self : Dataset D) (index : list Z) :
  left (offset self) + right (offset self) <= len self ->
  len self <= int64_max ->
  expand_index self index =
  Ok ((fun x => seqZ (clamp x (left (offset self))
                              (len self - right (offset self))
                      - left (offset self))
                     (left (offset self) + right (offset self)))
      <$> index).
Proof.
  intros Hfit Hmax. rewrite expand_index_unfold. f_equal.
  apply list_fmap_ext. intros i x _.
  pose proof (clamp_between x (left (offset self))
                (len self - right (offset self))) as Hc.
  apply window_row; unfold int64_min, int64_max in *; lia.
Qed.

(** C1: for a dataset of length [N] whose offset satisfies
    [left + right <= N], [expand_index] returns an array with one row per
    seed, each row of length [left + right], whose entry [(i, j)] is
    [clamp(index[i], left, N - right) + j - left]; every entry lies in
    [[0, N)]. *)
Theorem expand_index_spec {D} `{HasLen D} (self : Dataset D) (index : list Z) :
  left (offset self) + right (offset self) <= len self ->
  len self <= int64_max ->
  exists res : list (list Z),
    expand_index self index = Ok res /\
    length res = length index /\
    Forall (fun row => length row
                       = Z.to_nat (left (offset self) + right (offset self)))
           res /\
    (forall (i j : nat) (x : Z),
        index !! i = Some x ->
        Z.of_nat j < left (offset self) + right (offset self) ->
        exists row,
          res !! i = Some row /\
          row !! j = Some (clamp x (left (offset self))
                                   (len self - right (offset self))
                           + Z.of_nat j - left (offset self))) /\
    Forall (Forall (fun v => 0 <= v < len self)) res.
Proof.
  intros Hfit Hmax. eexists. split; [by apply expand_index_windows|].
  split; [by rewrite length_fmap|].
  split; [|split].
  - apply Forall_fmap, Forall_true. intros x. simpl. apply length_seqZ.
  - intros i j x Hi Hj. eexists. split.
    + rewrite list_lookup_fmap, Hi. reflexivity.
    + rewrite lookup_seqZ_lt by done. f_equal. lia.
  - apply Forall_fmap, Forall_true. intros x. simpl.
    apply Forall_seqZ. intros v Hv.
    pose proof (clamp_between x (left (offset self))
                  (len self - right (offset self))).
    lia.
Qed.

Lemma expand_index_spec_witness :
  (left (offset demo_dataset) + right (offset demo_dataset) <= len demo_dataset
   /\ len demo_dataset <= int64_max) /\
  exists res : list (list Z),
    expand_index demo_dataset [0; 3; 100; -5] = Ok res /\
    length res = 4%nat /\
    Forall (fun row => length row = 5%nat) res /\
    (forall (i j : nat) (x : Z),
        [0; 3; 100; -5] !! i = Some x ->
        Z.of_nat j < 5 ->
        exists row,
          res !! i = Some row /\
          row !! j = Some (clamp x 2 (7 - 3) + Z.of_nat j - 2)) /\
    Forall (Forall (fun v => 0 <= v < 7)) res.
Proof.
  split; [split; vm_compute; congruence|].
  refine (expand_index_spec demo_dataset [0; 3; 100; -5] _ _);
    vm_compute; congruence.
Defined.

(** C9: with [left + right <= N] the expansion returns for every seed
    tensor, whatever its entries: each seed is first clamped into
    [[left, N - right]] and the row is the window around the clamped seed. *)
Theorem expand_index_total {D} `{HasLen D} (self : Dataset D) (index : list Z) :
  left (offset self) + right (offset self) <= len self ->
  len self <= int64_max ->
  is_Ok (expand_index self index) /\
  expand_index self index =
    Ok ((fun x => (fun d => clamp x (left (offset self))
                                  (len self - right (offset self)) + d)
                  <$> torch_arange (- left (offset self)) (right (offset self)))
        <$> index) /\
  forall x : Z,
    left (offset self)
    <= clamp x (left (offset self)) (len self - right (offset self))
    <= len self - right (offset self).
Proof.
  intros Hfit Hmax. split; [by rewrite expand_index_unfold|]. split.
  - rewrite expand_index_unfold. f_equal.
    apply list_fmap_ext. intros i x _.
    apply Forall_fmap_ext, Forall_seqZ. intros d Hd.
    pose proof (clamp_between x (left (offset self))
                  (len self - right (offset self))).
    apply wrap64_id. unfold int64_min, int64_max in *. lia.
  - intros x. apply clamp_between. lia.
Qed.

Lemma expand_index_total_witness :
  (left (offset demo_dataset) + right (offset demo_dataset) <= len demo_dataset
   /\ len demo_dataset <= int64_max) /\
  is_Ok (expand_index demo_dataset [-1000; 1000; 4]) /\
  expand_index demo_dataset [-1000; 1000; 4] =
    Ok ((fun x => (fun d => clamp x 2 (7 - 3) + d) <$> torch_arange (- 2) 3)
        <$> [-1000; 1000; 4]) /\
  forall x : Z, 2 <= clamp x 2 (7 - 3) <= 7 - 3.
Proof.
  split; [split; vm_compute; congruence|].
  refine (expand_index_total demo_dataset [-1000; 1000; 4] _ _);
    vm_compute; congruence.
Defined.





(** ** The optional side indices and [configure_for] *)

(** C7: on a dataset that does not override them, [continuous_index] and
    [discrete_index] are both [None], which is not the empty tensor. *)
Theorem side_indices_default {D} (self : Dataset D) :
  continuous_index self = None /\
  discrete_index self = None /\
  continuous_index self <> Some [] /\
  discrete_index self <> Some [].
Proof. repeat split; discriminate. Qed.

(** C10: [configure_for] binds the offset of the model, whatever offset was
    bound before (the default [Offset(0, 1)] included), and changes nothing
    else. *)
Theorem configure_for_frame {D Model} `{HasOffset Model}
    (self : Dataset D) (model : Model) :
  offset (configure_for self model) = get_offset model /\
  device (configure_for self model) = device self /\
  attrs (configure_for self model) = attrs self /\
  (forall previous : Offset,
      configure_for (mkDataset previous (device self) (attrs self)) model
      = configure_for self model) /\
  (forall (a : D) (device_ : string),
      offset (Dataset_init a device_) = mkOffset 0 1 /\
      configure_for (Dataset_init a device_) model
      = mkDataset (get_offset model) device_ a).
Proof. repeat split. Qed.

(** ** Loader *)

Section LoaderFacts.
Context {D BatchIndex Batch W : Type}.
Context `{!@DatasetMethods D BatchIndex Batch W}.
Context `{!@LoaderMethods D BatchIndex W}.

(** Case analysis on the two guards of [__post_init__]. *)
Ltac guard_cases ns bs :=
  destruct ns as [?n|];
  [ destruct (decide (_ <= 0));
    [ | destruct bs as [?b|]; [destruct (decide (_ <= 0))|] ]
  | ]; simpl.

Ltac settle :=
  repeat match goal with
         | H : exists _, _ |- _ => destruct H
         | H : _ /\ _ |- _ => destruct H
         | H : _ \/ _ |- _ => destruct H
         end;
  simplify_eq; try lia; eauto 7 with lia.

(** C4: the constructor raises [ValueError] exactly when [num_steps] is
    [None] or not positive, or [batch_size] is given and not positive; it
    returns the loader exactly when [num_steps] is positive and [batch_size]
    is [None] or positive. The check runs inside the constructor, so no
    loader exists to iterate over when it fails. *)
Theorem Loader_init_validation
    (dataset_ : Dataset D) (num_steps_ batch_size_ : option Z) :
  (Loader_init dataset_ num_steps_ batch_size_ = Raise ValueError <->
   num_steps_ = None \/
   (exists n, num_steps_ = Some n /\ n <= 0) \/
   (exists b, batch_size_ = Some b /\ b <= 0)) /\
  (Loader_init dataset_ num_steps_ batch_size_
   = Ok (mkLoader dataset_ num_steps_ batch_size_) <->
   (exists n, num_steps_ = Some n /\ 0 < n) /\
   (batch_size_ = None \/ exists b, batch_size_ = Some b /\ 0 < b)) /\
  (forall self, Loader_init dataset_ num_steps_ batch_size_ = Ok self ->
                self = mkLoader dataset_ num_steps_ batch_size_).
Proof.
  unfold Loader_init, __post_init__; simpl.
  guard_cases num_steps_ batch_size_;
    (split; [|split]; [split; intros; settle | split; intros; settle |]);
    intros; settle.
Qed.

Lemma loop_turn_yield (self : @Loader D) (k : nat) (w : W) :
  returns (get_indices self (batch_size self)) ->
  (forall index, returns (load_batch (dataset self) index)) ->
  exists index w1 batch w2,
    get_indices self (batch_size self) w = (Ok index, w1) /\
    load_batch (dataset self) index w1 = (Ok batch, w2) /\
    loop_turn self (S k) w = (Ok (Some batch, GenSuspended k), w2).
Proof.
  intros Hget Hload. specialize (Hget w).
  destruct (get_indices self (batch_size self) w) as [[index|e] w1] eqn:Eget;
    [clear Hget|destruct Hget].
  specialize (Hload index w1).
  destruct (load_batch (dataset self) index w1) as [[batch|e] w2] eqn:Eload;
    [clear Hload|destruct Hload].
  exists index, w1, batch, w2. split; [done|]. split; [done|].
  unfold loop_turn, bind. by rewrite Eget, Eload.
Qed.

(** From a generator with [k] iterations left, [k + 1] calls of [next] see
    [k] batches and then the end of the iteration. *)
Lemma collect_suspended (self : @Loader D) :
  returns (get_indices self (batch_size self)) ->
  (forall index, returns (load_batch (dataset self) index)) ->
  forall (k fuel : nat) (w : W),
    (k < fuel)%nat ->
    exists batches w',
      collect self fuel (GenSuspended k) w = (Ok (Some batches), w') /\
      length batches = k /\
      iterates self w batches w'.
Proof.
  intros Hget Hload. induction k as [|k IH]; intros fuel w Hfuel.
  - destruct fuel as [|fuel]; [lia|]. exists [], w.
    repeat split. constructor.
  - destruct fuel as [|fuel]; [lia|].
    destruct (loop_turn_yield self k w Hget Hload)
      as (index & w1 & batch & w2 & Eget & Eload & Eturn).
    destruct (IH fuel w2) as (batches & w' & Ecollect & Hlen & Hiter); [lia|].
    exists (batch :: batches), w'. split; [|split].
    + cbn [collect gen_next]. unfold bind at 1.
      rewrite Eturn. unfold bind. by rewrite Ecollect.
    + simpl. by rewrite Hlen.
    + econstructor; eassumption.
Qed.

(** A fresh generator first takes [len(self)]; from there it behaves as one
    suspended with that many iterations left. *)
Lemma collect_created (self : @Loader D) (n : Z) (fuel : nat) (w : W) :
  builtin_len (Loader_len self) = Ok n ->
  collect self fuel GenCreated w
  = collect self fuel (GenSuspended (Z.to_nat n)) w.
Proof.
  intros Hlen. destruct fuel as [|fuel]; [done|].
  cbn [collect gen_next]. unfold bind at 1 3, lift. by rewrite Hlen.
Qed.

(** On the abstract base itself nothing is yielded: the first [next] already
    raises what [get_indices] raises. *)
Lemma gen_next_abstract (self : @Loader D) (n : Z) (w : W) :
  num_steps self = Some n -> 0 < n <= int64_max ->
  @gen_next D BatchIndex Batch W Dataset_load_batch Loader_get_indices
            self (__iter__ self) w
  = (Raise NotImplementedError, w).
Proof.
  intros Hn Hpos. unfold __iter__, gen_next, bind, lift, Loader_len, builtin_len.
  rewrite Hn. rewrite !decide_False by lia.
  destruct (Z.to_nat n) as [|k] eqn:Ek; [lia|]. reflexivity.
Qed.

(** A [num_steps] above [sys.maxsize] passes the constructor, but [len]
    refuses it: the first [next] raises before anything is sampled. *)
Lemma collect_overflow (self : @Loader D) (n : Z) (fuel : nat) (w : W) :
  num_steps self = Some n -> int64_max < n -> (0 < fuel)%nat ->
  builtin_len (Loader_len self) = Raise OverflowError /\
  collect self fuel (__iter__ self) w = (Raise OverflowError, w).
Proof.
  intros Hn Hbig Hfuel.
  assert (builtin_len (Loader_len self) = Raise OverflowError) as Hlen.
  { unfold builtin_len, Loader_len. rewrite Hn.
    rewrite decide_False, decide_True; unfold int64_max in *; (done || lia). }
  split; [done|]. destruct fuel as [|fuel]; [lia|].
  unfold __iter__. cbn [collect gen_next]. unfold bind, lift. by rewrite Hlen.
Qed.

(** C5, as the code behaves: for a loader the constructor accepted whose
    [num_steps] is at most [sys.maxsize], and whose [get_indices] and
    [load_batch] return, [len] is [num_steps], and iterating yields exactly
    [num_steps] batches and then stops; each batch comes from [get_indices]
    called with the loader's [batch_size], followed by [load_batch] of the
    dataset on the index that call returned. *)
Theorem Loader_iter_spec
    (dataset_ : Dataset D) (n : Z) (batch_size_ : option Z)
    (self : @Loader D) :
  Loader_init dataset_ (Some n) batch_size_ = Ok self ->
  n <= int64_max ->
  returns (get_indices self (batch_size self)) ->
  (forall index, returns (load_batch (dataset self) index)) ->
  num_steps self = Some n /\
  builtin_len (Loader_len self) = Ok n /\
  forall (w : W) (fuel : nat),
    (Z.to_nat n < fuel)%nat ->
    exists batches w',
      collect self fuel (__iter__ self) w = (Ok (Some batches), w') /\
      Z.of_nat (length batches) = n /\
      iterates self w batches w'.
Proof.
  intros Hinit Hmax Hget Hload.
  assert (num_steps self = Some n /\ 0 < n) as (Hn & Hpos).
  { revert Hinit. unfold Loader_init, __post_init__; simpl.
    destruct (decide (n <= 0)); [done|].
    destruct batch_size_ as [b|]; [destruct (decide (b <= 0)); [done|]|];
      intros; simplify_eq; simpl; split; (done || lia). }
  assert (builtin_len (Loader_len self) = Ok n) as Hlen.
  { unfold builtin_len, Loader_len. rewrite Hn.
    rewrite !decide_False by lia. done. }
  split; [done|]. split; [done|].
  intros w fuel Hfuel. unfold __iter__.
  rewrite (collect_created self n) by done.
  destruct (collect_suspended self Hget Hload (Z.to_nat n) fuel w Hfuel)
    as (batches & w' & Ecollect & Hcount & Hiter).
  exists batches, w'. repeat split; [done| lia |done].
Qed.
End LoaderFacts.

(** Three steps of batch size two, from generator state 0; one call of
    [next] too few and the iteration is still open (the outer [None]). *)
Example collect_demo :
  collect demo_loader 4 (__iter__ demo_loader) 0
  = (Ok (Some [[[0; 1; 2; 3; 4]; [0; 1; 2; 3; 4]];
               [[0; 1; 2; 3; 4]; [0; 1; 2; 3; 4]];
               [[0; 1; 2; 3; 4]; [1; 2; 3; 4; 5]]]), 3) /\
  collect demo_loader 3 (__iter__ demo_loader) 0 = (Ok None, 3).
Proof. split; reflexivity. Qed.

Lemma Loader_init_validation_witness :
  Loader_init demo_dataset (Some 3) (Some 2) = Ok demo_loader /\
  Loader_init demo_dataset (Some 0) (Some 2) = Raise ValueError /\
  Loader_init demo_dataset None None = Raise ValueError /\
  Loader_init demo_dataset (Some 3) (Some (-1)) = Raise ValueError.
Proof.
  split; [|split; [|split]].
  - apply (Loader_init_validation demo_dataset (Some 3) (Some 2)).
    split; [exists 3|right; exists 2]; split; reflexivity.
  - apply (Loader_init_validation demo_dataset (Some 0) (Some 2)).
    right; left. exists 0. split; [reflexivity|lia].
  - apply (Loader_init_validation demo_dataset None None). by left.
  - apply (Loader_init_validation demo_dataset (Some 3) (Some (-1))).
    right; right. exists (-1). split; [reflexivity|lia].
Defined.

(** The demo loader draws seeds [0,1], [1,2], [2,3] and yields their three
    batches of windows. *)
Lemma Loader_iter_spec_witness :
  Loader_init demo_dataset (Some 3) (Some 2) = Ok demo_loader /\
  3 <= int64_max /\
  returns (get_indices demo_loader (batch_size demo_loader)) /\
  (forall index, returns (load_batch (dataset demo_loader) index)) /\
  num_steps demo_loader = Some 3 /\
  builtin_len (Loader_len demo_loader) = Ok 3 /\
  forall (w : Z) (fuel : nat),
    (Z.to_nat 3 < fuel)%nat ->
    exists batches w',
      collect demo_loader fuel (__iter__ demo_loader) w
      = (Ok (Some batches), w') /\
      Z.of_nat (length batches) = 3 /\
      iterates demo_loader w batches w'.
Proof.
  split; [reflexivity|].
  split; [vm_compute; congruence|].
  split; [intros w; exact I|].
  split; [intros index w; exact I|].
  refine (Loader_iter_spec demo_dataset 3 (Some 2) demo_loader _ _ _ _).
  - reflexivity.
  - vm_compute; congruence.
  - intros w. exact I.
  - intros index w. exact I.
Defined.

(** C5, as stated, fails: [num_steps = 2^63] passes the constructor and the
    sampler of the demo loader always returns, yet [len] raises
    [OverflowError] instead of giving [num_steps], and iterating raises it
    without yielding a batch or sampling. *)
Lemma Loader_len_overflow :
  Loader_init demo_dataset (Some (2 ^ 63)) (Some 2)
  = Ok (mkLoader demo_dataset (Some (2 ^ 63)) (Some 2)) /\
  returns (get_indices (mkLoader demo_dataset (Some (2 ^ 63)) (Some 2))
                       (Some 2)) /\
  (forall index,
      returns (load_batch (W := Z) demo_dataset index)) /\
  builtin_len (Loader_len (mkLoader demo_dataset (Some (2 ^ 63)) (Some 2)))
  = Raise OverflowError /\
  builtin_len (Loader_len (mkLoader demo_dataset (Some (2 ^ 63)) (Some 2)))
  <> Ok (2 ^ 63) /\
  collect (mkLoader demo_dataset (Some (2 ^ 63)) (Some 2)) 5
          (__iter__ (mkLoader demo_dataset (Some (2 ^ 63)) (Some 2))) 0
  = (Raise OverflowError, 0).
Proof.
  split; [reflexivity|].
  split; [intros w; exact I|].
  split; [intros index w; exact I|].
  split; [reflexivity|].
  split; [discriminate|].
  reflexivity.
Qed.

(** ** The noise registry *)

Section NoiseFacts.
Import generate_synthetic_data.
Context {ndarray W : Type} `{!@NumPy ndarray W}.

(** C8: the registry holds exactly the six names [poisson], [gaussian],
    [laplace], [uniform], [t] and [refractory_poisson]; the function
    registered as [refractory_poisson] raises [NotImplementedError] on every
    input, which is not the [ValueError] of a configuration error. *)
Theorem noises_registry :
  dom (__noises (ndarray := ndarray) (W := W))
  = {[ "poisson"; "gaussian"; "laplace"; "uniform"; "t";
       "refractory_poisson" ]} /\
  (exists func : function (ndarray := ndarray) (W := W),
      __noises !! "refractory_poisson" = Some func /\
      __name__ func = "refractory_poisson" /\
      forall (x : ndarray) (w : W),
        __call__ func x w = (Raise NotImplementedError, w)) /\
  NotImplementedError <> ValueError.
Proof.
  split; [|split; [|discriminate]].
  - unfold __noises, _register_noise; simpl.
    rewrite !dom_insert_L, dom_empty_L. set_solver.
  - exists refractory_poisson. split; [|split; [reflexivity|]].
    + unfold __noises, _register_noise; simpl. apply lookup_insert_eq.
    + intros x w. reflexivity.
Qed.
End NoiseFacts.

(** ** The batch adapter *)

Section TransformFacts.
Context {rate period count W : Type} `{!@SpikeSampler rate period count W}.

(** Drawing once per entry returns, with as many counts as there were
    rates. *)
Lemma mapM_draws (p : period) (rates : list rate) (w : W) :
  exists (counts : list count) (w' : W),
    mapM (fun r w => let (c, w') := _get_counts r p w in (Ok c, w')) rates w
    = (Ok counts, w') /\
    length counts = length rates.
Proof.
  revert w. induction rates as [|r rates IH]; intros w.
  - by exists [], w.
  - cbn [mapM]. unfold bind at 1.
    destruct (_get_counts r p w) as [c w1].
    destruct (IH w1) as (counts & w' & Emap & Hlen).
    exists (c :: counts), w'. unfold bind. rewrite Emap.
    split; [done|]. simpl. by rewrite Hlen.
Qed.

(** C6: applied to a rate tensor, the transform returns a count tensor of
    the same shape. *)
Theorem PoissonNeuronTransform_shape
    (self : @PoissonNeuronTransform period) (spike_rates : Tensor rate) (w : W) :
  Tensor_wf spike_rates ->
  exists (spike_counts : Tensor count) (w' : W),
    PoissonNeuronTransform_call self spike_rates w = (Ok spike_counts, w') /\
    shape spike_counts = shape spike_rates /\
    Tensor_wf spike_counts.
Proof.
  intros Hwf. unfold PoissonNeuronTransform_call, bind.
  destruct (mapM_draws (refractory_period self) (data spike_rates) w)
    as (counts & w' & Emap & Hlen).
  rewrite Emap. unfold lift, reshape.
  rewrite decide_True by (by rewrite Hlen).
  eexists _, _. split; [done|]. split; [done|].
  unfold Tensor_wf; simpl. by rewrite Hlen.
Qed.
End TransformFacts.

Lemma PoissonNeuronTransform_shape_witness :
  Tensor_wf demo_rates /\
  exists (spike_counts : Tensor Z) (w' : Z),
    PoissonNeuronTransform_call demo_transform demo_rates 0
    = (Ok spike_counts, w') /\
    shape spike_counts = [2; 3]%nat /\
    Tensor_wf spike_counts.
Proof.
  split; [reflexivity|].
  refine (PoissonNeuronTransform_shape demo_transform demo_rates 0 _).
  reflexivity.
Defined.

(** * Further properties of the code *)

(** ** Index expansion: where the window sits *)

(** The row of one seed, under the condition that the window fits. *)
Lemma expand_index_row {D} `{HasLen D}
    (self : Dataset D) (index : list Z) (i : nat) (x : Z) :
  left (offset self) + right (offset self) <= len self ->
  len self <= int64_max ->
  index !! i = Some x ->
  exists res : list (list Z),
    expand_index self index = Ok res /\
    res !! i
    = Some (seqZ (clamp x (left (offset self)) (len self - right (offset self))
                  - left (offset self))
                 (left (offset self) + right (offset self))).
Proof.
  intros Hfit Hmax Hi. eexists. split; [by apply expand_index_windows|].
  by rewrite list_lookup_fmap, Hi.
Qed.

(** X1: the window of a seed that is a valid position of the dataset contains
    that position, also when the clamp moved the window: with [left >= 0]
    and [right >= 1] a seed [x] in [[0, N)] is an entry of its own row. *)
Theorem expand_index_contains_seed {D} `{HasLen D}
    (self : Dataset D) (index : list Z) (i : nat) (x : Z) :
  0 <= left (offset self) ->
  1 <= right (offset self) ->
  left (offset self) + right (offset self) <= len self ->
  len self <= int64_max ->
  index !! i = Some x ->
  0 <= x < len self ->
  exists (res : list (list Z)) (row : list Z),
    expand_index self index = Ok res /\ res !! i = Some row /\ x ∈ row.
Proof.
  intros Hl Hr Hfit Hmax Hi Hx.
  destruct (expand_index_row self index i x Hfit Hmax Hi) as (res & Hres & Hrow).
  eexists res, _. split; [done|]. split; [done|].
  apply elem_of_seqZ. unfold clamp. lia.
Qed.

Lemma expand_index_contains_seed_witness :
  exists (res : list (list Z)) (row : list Z),
    expand_index demo_dataset [3; 0; 6] = Ok res /\
    res !! 2%nat = Some row /\ 6 ∈ row.
Proof.
  refine (expand_index_contains_seed demo_dataset [3; 0; 6] 2 6 _ _ _ _ _ _);
    vm_compute; try split; congruence.
Defined.

(** X2: the docstring of [expand_index] gives the entries as
    [index[i] + j - left], without the clamp. For a window of at least one
    column that formula describes the row of a seed exactly when the seed
    lies in [[left, N - right]]. *)
Theorem expand_index_docstring {D} `{HasLen D}
    (self : Dataset D) (index : list Z) (i : nat) (x : Z) :
  1 <= left (offset self) + right (offset self) ->
  left (offset self) + right (offset self) <= len self ->
  len self <= int64_max ->
  index !! i = Some x ->
  exists (res : list (list Z)) (row : list Z),
    expand_index self index = Ok res /\
    res !! i = Some row /\
    ((forall j : nat,
         Z.of_nat j < left (offset self) + right (offset self) ->
         row !! j = Some (x + Z.of_nat j - left (offset self)))
     <-> left (offset self) <= x <= len self - right (offset self)).
Proof.
  intros Hwide Hfit Hmax Hi.
  destruct (expand_index_row self index i x Hfit Hmax Hi) as (res & Hres & Hrow).
  eexists res, _. split; [done|]. split; [done|].
  pose proof (clamp_between x (left (offset self))
                (len self - right (offset self))) as Hc.
  split.
  - intros Hdoc. specialize (Hdoc 0%nat).
    rewrite lookup_seqZ_lt in Hdoc by lia.
    assert (clamp x (left (offset self)) (len self - right (offset self)) = x)
      as <- by (injection Hdoc; [lia | lia]).
    apply Hc. lia.
  - intros Hin j Hj. rewrite lookup_seqZ_lt by done.
    f_equal. unfold clamp. lia.
Qed.

Lemma expand_index_docstring_witness :
  exists (res : list (list Z)) (row : list Z),
    expand_index demo_dataset [3; 0; 6] = Ok res /\
    res !! 1%nat = Some row /\
    ((forall j : nat,
         Z.of_nat j < 2 + 3 -> row !! j = Some (0 + Z.of_nat j - 2))
     <-> 2 <= 0 <= 7 - 3).
Proof.
  refine (expand_index_docstring demo_dataset [3; 0; 6] 1 0 _ _ _ _);
    vm_compute; congruence.
Defined.

(** X3: seeds at or before [left], negative ones included, all expand to the
    first window [0, ..., left + right - 1]; seeds at or after [N - right]
    all expand to the last window [N - left - right, ..., N - 1]. A negative
    seed is therefore never read as a position counted from the end. *)
Theorem expand_index_saturates {D} `{HasLen D}
    (self : Dataset D) (index : list Z) (i : nat) (x : Z) :
  left (offset self) + right (offset self) <= len self ->
  len self <= int64_max ->
  index !! i = Some x ->
  exists (res : list (list Z)) (row : list Z),
    expand_index self index = Ok res /\
    res !! i = Some row /\
    (x <= left (offset self) ->
     row = seqZ 0 (left (offset self) + right (offset self))) /\
    (len self - right (offset self) <= x ->
     row = seqZ (len self - left (offset self) - right (offset self))
                (left (offset self) + right (offset self))).
Proof.
  intros Hfit Hmax Hi.
  destruct (expand_index_row self index i x Hfit Hmax Hi) as (res & Hres & Hrow).
  eexists res, _. split; [done|]. split; [done|].
  split; intros Hx; f_equal; unfold clamp; lia.
Qed.

Lemma expand_index_saturates_witness :
  exists (res : list (list Z)) (row : list Z),
    expand_index demo_dataset [-1; 100] = Ok res /\
    res !! 0%nat = Some row /\
    (-1 <= 2 -> row = seqZ 0 (2 + 3)) /\
    (7 - 3 <= -1 -> row = seqZ (7 - 2 - 3) (2 + 3)).
Proof.
  refine (expand_index_saturates demo_dataset [-1; 100] 0 (-1) _ _ _);
    vm_compute; congruence.
Defined.



(** ** Index expansion after construction and after [configure_for] *)

(** X5: a dataset that was never configured carries the offset of [__init__],
    one column wide: on a non-empty dataset the expansion is the column of
    the seeds clamped to [[0, N - 1]]. *)
Theorem expand_index_unconfigured {D} `{HasLen D}
    (a : D) (device_ : string) (index : list Z) :
  1 <= __len__ a <= int64_max ->
  expand_index (Dataset_init a device_) index
  = Ok ((fun x => [clamp x 0 (__len__ a - 1)]) <$> index).
Proof.
  intros Hlen. rewrite expand_index_windows by (unfold len; simpl; lia).
  f_equal. apply list_fmap_ext. intros i x _. unfold len; simpl.
  rewrite seqZ_cons, seqZ_nil by lia. f_equal. lia.
Qed.

Lemma expand_index_unconfigured_witness :
  expand_index (Dataset_init [10; 11; 12] "cpu") [-4; 1; 9]
  = Ok ((fun x => [clamp x 0 (3 - 1)]) <$> [-4; 1; 9]).
Proof.
  refine (expand_index_unconfigured [10; 11; 12] "cpu" [-4; 1; 9] _).
  vm_compute. split; congruence.
Defined.

(** X6: after [configure_for] the expansion follows the model: the length of
    the dataset is what it was, and when the window of the model fits, each
    row is the window of the model around the seed clamped for that window,
    whatever offset was bound before. *)
Theorem expand_index_configured {D Model} `{HasLen D} `{HasOffset Model}
    (self : Dataset D) (model : Model) (index : list Z) :
  left (get_offset model) + right (get_offset model) <= len self ->
  len self <= int64_max ->
  len (configure_for self model) = len self /\
  expand_index (configure_for self model) index
  = Ok ((fun x => seqZ (clamp x (left (get_offset model))
                                (len self - right (get_offset model))
                        - left (get_offset model))
                       (left (get_offset model) + right (get_offset model)))
        <$> index).
Proof.
  intros Hfit Hmax. split; [reflexivity|].
  by rewrite expand_index_windows.
Qed.

Lemma expand_index_configured_witness :
  len (configure_for demo_dataset (mkOffset 5 1)) = len demo_dataset /\
  expand_index (configure_for demo_dataset (mkOffset 5 1)) [0; 6]
  = Ok ((fun x => seqZ (clamp x 5 (7 - 1) - 5) (5 + 1)) <$> [0; 6]).
Proof.
  refine (expand_index_configured demo_dataset (mkOffset 5 1) [0; 6] _ _);
    vm_compute; congruence.
Defined.

(** ** Loader: partial iteration, exceptions, unvalidated fields *)

Section LoaderMore.
Context {D BatchIndex Batch W : Type}.
Context `{!@DatasetMethods D BatchIndex Batch W}.
Context `{!@LoaderMethods D BatchIndex W}.





(** X9: the guards run in the constructor only. A loader whose [num_steps] is
    [0], negative or [None] when it is iterated (the dataclass is not
    frozen) yields nothing, or fails in [len] with [ValueError] or
    [TypeError]; in each case before anything was sampled. *)
Theorem Loader_iter_unvalidated (self : @Loader D) (w : W) (fuel : nat) :
  (0 < fuel)%nat ->
  (num_steps self = Some 0 ->
   collect self fuel (__iter__ self) w = (Ok (Some []), w)) /\
  (forall n, num_steps self = Some n -> n < 0 ->
   collect self fuel (__iter__ self) w = (Raise ValueError, w)) /\
  (num_steps self = None ->
   collect self fuel (__iter__ self) w = (Raise TypeError, w)).
Proof.
  intros Hfuel. destruct fuel as [|fuel]; [lia|].
  unfold __iter__. cbn [collect gen_next].
  unfold bind, lift, Loader_len, builtin_len.
  split; [|split].
  - intros ->. reflexivity.
  - intros n -> Hn. by rewrite decide_True.
  - intros ->. reflexivity.
Qed.
End LoaderMore.



Lemma Loader_iter_unvalidated_witness :
  collect (mkLoader demo_dataset (Some 0) (Some 2)) 1
          (__iter__ (mkLoader demo_dataset (Some 0) (Some 2))) 5
  = (Ok (Some []), 5) /\
  collect (mkLoader demo_dataset (Some (-3)) (Some 2)) 1
          (__iter__ (mkLoader demo_dataset (Some (-3)) (Some 2))) 5
  = (Raise ValueError, 5) /\
  collect (mkLoader demo_dataset None (Some 2)) 1
          (__iter__ (mkLoader demo_dataset None (Some 2))) 5
  = (Raise TypeError, 5).
Proof.
  split; [|split].
  - apply (Loader_iter_unvalidated
             (mkLoader demo_dataset (Some 0) (Some 2)) 5 1 (le_n 1)).
    reflexivity.
  - apply (Loader_iter_unvalidated
             (mkLoader demo_dataset (Some (-3)) (Some 2)) 5 1 (le_n 1)) with (-3);
      reflexivity.
  - apply (Loader_iter_unvalidated
             (mkLoader demo_dataset None (Some 2)) 5 1 (le_n 1)).
    reflexivity.
Defined.

(** ** The noise registry: the decorator and what it files *)

Section RegistryFacts.
Import generate_synthetic_data.
Context {ndarray W : Type} `{!@NumPy ndarray W}.

Lemma keyed_by_name_register
    (func : function (ndarray := ndarray) (W := W))
    (noises : gmap string function) :
  keyed_by_name noises -> keyed_by_name (_register_noise func noises).2.
Proof.
  intros Hkeyed name func' Hlook. unfold _register_noise in Hlook; simpl in Hlook.
  apply lookup_insert_Some in Hlook as [[<- <-]|[_ Hlook]]; [done|].
  by apply Hkeyed.
Qed.

(** X10: the decorator hands back the function it was given, files it under
    its [__name__], replacing whatever was filed under that name, and leaves
    every other name alone; a registry keyed by name stays keyed by name. *)
Theorem register_noise_files
    (func : function (ndarray := ndarray) (W := W))
    (noises : gmap string function) :
  (_register_noise func noises).1 = func /\
  (_register_noise func noises).2 !! __name__ func = Some func /\
  (forall name, name <> __name__ func ->
                (_register_noise func noises).2 !! name = noises !! name) /\
  (keyed_by_name noises -> keyed_by_name (_register_noise func noises).2).
Proof.
  split; [done|]. split; [apply lookup_insert_eq|].
  split; [|apply keyed_by_name_register].
  intros name Hne. unfold _register_noise; simpl. by apply lookup_insert_ne.
Qed.

(** X11: in the registry of the module every function is filed under its own
    name, and [refractory_poisson] is the only stub. Every other entry, on
    any argument and in any state of the generator, makes its one call into
    numpy or scipy and returns exactly when that call returns there; when
    the call raises, the entry raises the same exception and leaves the
    state the call left. *)
Theorem noises_implemented :
  keyed_by_name (__noises (ndarray := ndarray) (W := W)) /\
  (forall name (func : function (ndarray := ndarray) (W := W)),
     __noises !! name = Some func ->
     name <> "refractory_poisson" ->
     forall (x : ndarray) (w : W),
     exists call : M W ndarray,
       sampler_call name x = Some call /\
       (is_Ok (call w).1 <-> is_Ok (__call__ func x w).1) /\
       (forall e w', call w = (Raise e, w') ->
                     __call__ func x w = (Raise e, w'))).
Proof.
  split.
  - unfold __noises. simpl.
    repeat apply keyed_by_name_register. intros name func Hlook.
    by rewrite lookup_empty in Hlook.
  - intros name func Hlook Hstub x w.
    unfold __noises, _register_noise in Hlook; simpl in Hlook.
    repeat (apply lookup_insert_Some in Hlook as [[<- <-]|[_ Hlook]];
            [try done; simpl|]).
    + exists (t_rvs 2 x). by repeat split.
    + exists (np_random_uniform 0 2 (np_shape x)). split; [done|].
      unfold bind, ret.
      destruct (np_random_uniform 0 2 (np_shape x) w) as [[u|e] w1];
        simpl; repeat split; (done || congruence).
    + exists (np_random_laplace x). split; [done|].
      unfold bind, ret.
      destruct (np_random_laplace x w) as [[y|e] w1];
        simpl; repeat split; (done || congruence).
    + exists (truncnorm_rvs 0 1000 x). by repeat split.
    + exists (np_random_poisson x). by repeat split.
    + by rewrite lookup_empty in Hlook.
Qed.
End RegistryFacts.

Lemma register_noise_files_witness :
  keyed_by_name
    (generate_synthetic_data._register_noise
       generate_synthetic_data.laplace
       {[ "poisson" := generate_synthetic_data.poisson
                         (ndarray := list Z) (W := Z) ]}).2.
Proof.
  apply (register_noise_files (ndarray := list Z) (W := Z)).
  intros name func Hlook.
  apply lookup_singleton_Some in Hlook as [<- <-]. reflexivity.
Defined.

(** The registered [laplace] on three rates, generator state 7. *)
Lemma noises_implemented_witness :
  exists call : M Z (list Z),
    sampler_call "laplace" [3; 1500; -2] = Some call /\
    (is_Ok (call 7).1
     <-> is_Ok (generate_synthetic_data.__call__
                  generate_synthetic_data.laplace [3; 1500; -2] 7).1) /\
    (forall e w', call 7 = (Raise e, w') ->
                  generate_synthetic_data.__call__
                    generate_synthetic_data.laplace [3; 1500; -2] 7
                  = (Raise e, w')).
Proof.
  refine (proj2 (noises_implemented (ndarray := list Z) (W := Z))
                "laplace" generate_synthetic_data.laplace _ _ [3; 1500; -2] 7).
  - reflexivity.
  - discriminate.
Defined.
